(** * slash: the console reporter

    A shallow embedding of [slash/reporting/console_reporter.py] and the
    properties of its verbosity-gated rendering.

    The reporter writes through a [py.io.TerminalWriter]; the writer is
    modelled by the log of the calls made on it ([write], [line], [sep]
    with their markup keywords), which is what the reporter decides.
    Methods are computations in a state-and-exception monad over the
    reporter object. *)

From Stdlib Require Import List String Ascii ZArith QArith Qround Lia Lqa Bool.
From Stdlib Require Import DecimalString DecimalZ DecimalN DecimalPos.
Import ListNotations.

Local Open Scope string_scope.
Local Open Scope list_scope.
Local Open Scope Z_scope.

(** ** The terminal writer, as the log of its calls *)

Module Terminal.

(** Markup keywords passed as [**kw]. *)
Inductive markup : Type :=
| bold | red | green | yellow | white | cyan | blink.

Inductive event : Type :=
| Write (msg : string) (kw : list markup)
| Line (s : string) (kw : list markup)
| Sep (sepchar : string) (title : option string) (kw : list markup).

(** The text handed to [write], in order; rules and [line] calls are
    left out. *)
Fixpoint written (evs : list event) : string :=
  match evs with
  | [] => ""
  | Write msg _ :: rest => msg ++ written rest
  | _ :: rest => written rest
  end.

End Terminal.
Export Terminal.

(** ** Python strings and number formatting *)

Module Py.

(** [str(n)] and ["{0}".format(n)] for an [int]. *)
Definition str_int (z : Z) : string := NilZero.string_of_int (Z.to_int z).

Fixpoint zeros (n : nat) : string :=
  match n with
  | O => ""
  | S k => String "0" (zeros k)
  end.

(** ["{0:02}".format(n)] for an [int]: sign first, then the digits
    filled with zeros on the left up to a total width of 2. *)
Definition format_02 (z : Z) : string :=
  let digits := str_int (Z.abs z) in
  if (z <? 0)%Z
  then "-" ++ zeros (1 - String.length digits)%nat ++ digits
  else zeros (2 - String.length digits)%nat ++ digits.

(** [x % y] on numbers, for [y > 0]: the result has the sign of [y]. *)
Definition mod_ (x y : Q) : Q :=
  (x - y * inject_Z (Qfloor (x / y)))%Q.

(** [int(x)]: truncation towards zero. *)
Definition int (x : Q) : Z :=
  if Qle_bool 0 x then Qfloor x else Qceiling x.

(** [str.isspace] on one character (code points below 256). *)
Definition isspace (c : ascii) : bool :=
  let n := nat_of_ascii c in
  ((9 <=? n) && (n <=? 13))%nat
  || ((28 <=? n) && (n <=? 32))%nat
  || (n =? 133)%nat || (n =? 160)%nat.

(** ["".join(itertools.takewhile(p, s))]. *)
Fixpoint takewhile (p : ascii -> bool) (s : string) : string :=
  match s with
  | EmptyString => ""
  | String c rest => if p c then String c (takewhile p rest) else ""
  end.

(** Line boundaries of [str.splitlines] (code points below 256);
    a carriage return followed by a line feed is one boundary. *)
Definition is_linebreak (c : ascii) : bool :=
  let n := nat_of_ascii c in
  ((10 <=? n) && (n <=? 13))%nat
  || ((28 <=? n) && (n <=? 30))%nat
  || (n =? 133)%nat.

Definition CR : ascii := ascii_of_nat 13.
Definition LF : ascii := ascii_of_nat 10.

Fixpoint rev_string (s acc : string) : string :=
  match s with
  | EmptyString => acc
  | String c rest => rev_string rest (String c acc)
  end.

(** [cur] holds the characters of the line being read, last first. *)
Fixpoint splitlines_from (cur : string) (s : string) : list string :=
  match s with
  | EmptyString =>
      match cur with
      | EmptyString => []
      | _ => [rev_string cur ""]
      end
  | String c rest =>
      if is_linebreak c then
        match rest with
        | String d rest' =>
            if (Ascii.eqb c CR && Ascii.eqb d LF)%bool
            then rev_string cur "" :: splitlines_from "" rest'
            else rev_string cur "" :: splitlines_from "" rest
        | EmptyString => [rev_string cur ""]
        end
      else splitlines_from (String c cur) rest
  end.

(** [s.splitlines()]. *)
Definition splitlines (s : string) : list string := splitlines_from "" s.

(** Truth value of a string and of a list. *)
Definition truthy_str (s : string) : bool :=
  match s with EmptyString => false | _ => true end.

Definition truthy_list {A : Type} (l : list A) : bool :=
  match l with [] => false | _ => true end.

End Py.

(** ** The collaborators' data *)

(** The three levels of [slash.log.VERBOSITIES] the reporter compares
    against. The enumeration is defined outside this module; its values
    are taken as given. *)
Record Verbosities : Type := {
  WARNING : Z;
  ERROR : Z;
  CRITICAL : Z
}.

(** A stack frame. [locals] and [globals] map a name to a dictionary
    whose ["value"] entry is the rendered value; they are kept as
    association lists, in the order the mapping yields its items, with
    the ["value"] entry as the value. *)
Record Frame : Type := {
  filename : string;
  lineno : Z;
  code_line : string;
  code_string : string;
  locals : list (string * string);
  globals : list (string * string)
}.

Record Traceback : Type := { frames : list Frame }.

(** An error or failure record; [traceback] is [None] or an object. *)
Record Error : Type := {
  message : string;
  traceback : option Traceback
}.

(** [fqn] holds [str(test_metadata.fqn)]. *)
Record TestMetadata : Type := { fqn : string }.

(** A test result: [test_metadata] (or [None]), [get_errors()] and
    [get_failures()]. *)
Record Result : Type := {
  test_metadata : option TestMetadata;
  get_errors : list Error;
  get_failures : list Error
}.

(** [session.results]: what each of its methods returns. *)
Record SessionResults : Type := {
  is_success : bool;
  get_num_failures : Z;
  get_num_errors : Z;
  iter_all_failures : list (Result * list Error);
  iter_all_errors : list (Result * list Error);
  iter_all_results : list Result
}.

(** A session: its results and its duration in seconds, a number that
    is kept exact. *)
Record Session : Type := {
  results : SessionResults;
  duration : Q
}.

(** Modelled from the spec: [slash.utils.iteration.iteration], which is
    not part of this module. It yields each element with an object that
    tells whether the element is the first and whether it is the last of
    the sequence. *)
Record Iteration : Type := { first : bool; last : bool }.

Fixpoint iteration_from {A : Type} (is_first : bool) (l : list A)
  : list (Iteration * A) :=
  match l with
  | [] => []
  | x :: rest =>
      ({| first := is_first; last := negb (Py.truthy_list rest) |}, x)
        :: iteration_from false rest
  end.

Definition iteration {A : Type} (l : list A) : list (Iteration * A) :=
  iteration_from true l.

(** ** The reporter object and its monad *)

(** [_file_failed] and [_file_has_skips] are not set by [__init__]:
    [None] is an attribute that does not exist yet. *)
Record ConsoleReporter : Type := {
  _level : Z;
  _terminal : list event;
  _file_failed : option bool;
  _file_has_skips : option bool
}.

Inductive exn : Type := IndexError | AttributeError.

(** A call returns a value or raises; the object is kept either way. *)
Inductive outcome (A : Type) : Type :=
| Ok (a : A) (self : ConsoleReporter)
| Raise (e : exn) (self : ConsoleReporter).
Arguments Ok {A} a self.
Arguments Raise {A} e self.

Definition M (A : Type) : Type := ConsoleReporter -> outcome A.

Definition ret {A : Type} (a : A) : M A := fun self => Ok a self.

Definition bind {A B : Type} (m : M A) (k : A -> M B) : M B :=
  fun self =>
    match m self with
    | Ok a self' => k a self'
    | Raise e self' => Raise e self'
    end.

Definition raise {A : Type} (e : exn) : M A := fun self => Raise e self.

Declare Scope reporter_scope.
Delimit Scope reporter_scope with rep.
Notation "x <- m ;; k" := (bind m (fun x => k))
  (at level 61, m at next level, right associativity) : reporter_scope.
Notation "m ;; k" := (bind m (fun _ => k))
  (at level 61, right associativity) : reporter_scope.
Local Open Scope reporter_scope.

(** [for x in xs: body(x)]. *)
Fixpoint for_each {A : Type} (xs : list A) (body : A -> M unit) : M unit :=
  match xs with
  | [] => ret tt
  | x :: rest => body x ;; for_each rest body
  end.

Definition when (b : bool) (m : M unit) : M unit :=
  if b then m else ret tt.

(** The object after the calls [evs] have been made on its terminal. *)
Definition emit_to (self : ConsoleReporter) (evs : list event)
  : ConsoleReporter :=
  {| _level := _level self;
     _terminal := _terminal self ++ evs;
     _file_failed := _file_failed self;
     _file_has_skips := _file_has_skips self |}.

(** The reporter with its flags replaced. *)
Definition with_flags (self : ConsoleReporter)
  (failed has_skips : option bool) : ConsoleReporter :=
  {| _level := _level self;
     _terminal := _terminal self;
     _file_failed := failed;
     _file_has_skips := has_skips |}.

Definition terminal_write (msg : string) (kw : list markup) : M unit :=
  fun self => Ok tt (emit_to self [Write msg kw]).

Definition terminal_line (s : string) (kw : list markup) : M unit :=
  fun self => Ok tt (emit_to self [Line s kw]).

Definition terminal_sep (sepchar : string) (title : option string)
  (kw : list markup) : M unit :=
  fun self => Ok tt (emit_to self [Sep sepchar title kw]).

Definition get_level : M Z := fun self => Ok (_level self) self.

(** Reading an attribute that may not exist. *)
Definition get_file_failed : M bool :=
  fun self =>
    match _file_failed self with
    | Some b => Ok b self
    | None => Raise AttributeError self
    end.

Definition get_file_has_skips : M bool :=
  fun self =>
    match _file_has_skips self with
    | Some b => Ok b self
    | None => Raise AttributeError self
    end.

Definition set_file_failed (b : bool) : M unit :=
  fun self =>
    Ok tt {| _level := _level self;
             _terminal := _terminal self;
             _file_failed := Some b;
             _file_has_skips := _file_has_skips self |}.

Definition set_file_has_skips (b : bool) : M unit :=
  fun self =>
    Ok tt {| _level := _level self;
             _terminal := _terminal self;
             _file_failed := _file_failed self;
             _file_has_skips := Some b |}.

(** [l[-1]]. *)
Definition index_last {A : Type} (l : list A) : M A :=
  match rev l with
  | x :: _ => ret x
  | [] => raise IndexError
  end.

(** [ConsoleReporter(level, stream)]. *)
Definition __init__ (level : Z) : ConsoleReporter :=
  {| _level := level;
     _terminal := [];
     _file_failed := None;
     _file_has_skips := None |}.

(** ** The reporter's methods *)

Section Reporter.

Variable VERBOSITIES : Verbosities.

(** The decorator [from_verbosity(level)]: the method runs only when
    [self._level <= level]. *)
Definition from_verbosity (level : Z) (func : M unit) : M unit :=
  lvl <- get_level ;;
  if lvl <=? level then func else ret tt.

Definition _is_verbose (level : Z) : M bool :=
  lvl <- get_level ;; ret (lvl <=? level).

Definition report_session_start (session : Session) : M unit :=
  from_verbosity (ERROR VERBOSITIES)
    (terminal_sep "=" (Some "Session starts") [white; bold]).

Definition _get_location (result : Result) : string :=
  match test_metadata result with
  | Some md => fqn md
  | None => "**global**"
  end.

Definition _format_duration (duration : Q) : string :=
  let seconds := Py.mod_ duration 60 in
  let duration := (duration / 60)%Q in
  let minutes := Py.mod_ duration 60 in
  let hours := (duration / 60)%Q in
  Py.format_02 (Py.int hours) ++ ":" ++ Py.format_02 (Py.int minutes)
    ++ ":" ++ Py.format_02 (Py.int seconds).

(** One item of the locals/globals enumeration. *)
Definition _write_frame_local (index : nat) (item : string * string)
  : M unit :=
  let '(name, value) := item in
  when (0 <? index)%nat (terminal_write ", " []) ;;
  terminal_write (name ++ ": ") [cyan; blink] ;;
  terminal_write value [].

Fixpoint for_each_indexed {A : Type} (index : nat) (xs : list A)
  (body : nat -> A -> M unit) : M unit :=
  match xs with
  | [] => ret tt
  | x :: rest => body index x ;; for_each_indexed (S index) rest body
  end.

Definition _write_frame_locals (frame : Frame) : M unit :=
  from_verbosity (WARNING VERBOSITIES)
    (if (negb (Py.truthy_list (locals frame))
         && negb (Py.truthy_list (globals frame)))%bool
     then ret tt
     else
       for_each_indexed 0 (locals frame ++ globals frame)
         _write_frame_local ;;
       terminal_write (String Py.LF (String Py.LF "")) []).

Definition _write_code_line (item : Iteration * string) : M unit :=
  let '(line_iteration, line) := item in
  (if last line_iteration
   then terminal_write ">" [white; bold]
   else terminal_write " " []) ;;
  terminal_write line [white; bold] ;;
  terminal_write (String Py.LF "") [].

Definition _write_frame_code (frame : Frame) : M unit :=
  if Py.truthy_str (code_string frame) then
    lvl <- get_level ;;
    let code_lines :=
      if lvl <=? WARNING VERBOSITIES
      then Py.splitlines (code_string frame)
      else [code_line frame] in
    for_each (iteration code_lines) _write_code_line
  else ret tt.

(** The body of the loop over the frames in [_report_error]. The
    variable [line] of [_report_error] is set to the empty string
    before the loop and again here; nothing else assigns it (the
    [line] of [_write_frame_code] is local to that method). *)
Definition _report_frame (error : Error) (marker : string)
  (item : Iteration * Frame) : M unit :=
  let '(frame_iteration, frame) := item in
  when (negb (first frame_iteration)) (terminal_sep "- " None []) ;;
  let line := "" in
  _write_frame_locals frame ;;
  _write_frame_code frame ;;
  when (last frame_iteration)
    (terminal_write marker [red; bold] ;;
     terminal_write (Py.takewhile Py.isspace line) [] ;;
     terminal_write (message error) [red; bold] ;;
     terminal_write (String Py.LF "") []) ;;
  terminal_write
    (filename frame ++ ":" ++ Py.str_int (lineno frame) ++ ":"
       ++ String Py.LF "") [].

Definition _report_error (error : Error) (marker : string) : M unit :=
  frames <-
    match traceback error with
    | None => ret []
    | Some tb =>
        lvl <- get_level ;;
        if lvl >? WARNING VERBOSITIES
        then (f <- index_last (frames tb) ;; ret [f])
        else ret (frames tb)
    end ;;
  for_each (iteration frames) (_report_frame error marker).

Definition _report_error_objects (title : string)
  (iterator : list (Result * list Error)) (marker : string) : M unit :=
  terminal_sep "=" (Some title) [] ;;
  for_each iterator (fun '(result, errors) =>
    let location := _get_location result in
    for_each errors (fun error =>
      terminal_sep "_" (Some location) [] ;;
      _report_error error marker)).

Definition _report_failures (session : Session) : M unit :=
  _report_error_objects "FAILURES"
    (iter_all_failures (results session)) "F".

Definition _report_errors (session : Session) : M unit :=
  _report_error_objects "ERRORS"
    (iter_all_errors (results session)) "E".

Definition _report_result_concise (result : Result) : M unit :=
  if (Py.truthy_list (get_errors result)
      || Py.truthy_list (get_failures result))%bool
  then
    terminal_write (_get_location result) [] ;;
    terminal_write ":" [] ;;
    when (Py.truthy_list (get_errors result))
      (terminal_write
         (" " ++ Py.str_int (Z.of_nat (List.length (get_errors result)))
            ++ " errors") []) ;;
    when (Py.truthy_list (get_failures result))
      (terminal_write
         (" " ++ Py.str_int (Z.of_nat (List.length (get_failures result)))
            ++ " failures") []) ;;
    terminal_write (String Py.LF "") []
  else ret tt.

Definition _report_failures_and_errors_concise (session : Session)
  : M unit :=
  for_each (iter_all_results (results session)) _report_result_concise.

(** The message and the keywords of the closing rule. *)
Definition session_end_message (session : Session)
  : string * list markup :=
  let msg := "Session ended." in
  let kwargs := [bold] in
  let '(kwargs, msg) :=
    if is_success (results session)
    then (kwargs ++ [green], msg)
    else (kwargs ++ [red],
          (msg ++ " " ++ Py.str_int (get_num_failures (results session))
             ++ " failures, "
             ++ Py.str_int (get_num_errors (results session))
             ++ " errors.")%string) in
  let msg :=
    (msg ++ " Total duration: "
       ++ _format_duration (duration session))%string in
  (msg, kwargs).

Definition report_session_end (session : Session) : M unit :=
  lvl <- get_level ;;
  when (lvl >? WARNING VERBOSITIES)
    (terminal_write (String Py.LF "") []) ;;
  (if lvl <=? ERROR VERBOSITIES then
     _report_failures session ;;
     _report_errors session
   else if lvl <=? CRITICAL VERBOSITIES then
     _report_failures_and_errors_concise session
   else ret tt) ;;
  let '(msg, kwargs) := session_end_message session in
  terminal_sep "=" (Some msg) kwargs.

Definition report_file_start (filename : string) : M unit :=
  from_verbosity (WARNING VERBOSITIES)
    (set_file_failed false ;;
     set_file_has_skips false ;;
     terminal_write filename [] ;;
     terminal_write " " []).

Definition report_file_end (filename : string) : M unit :=
  from_verbosity (WARNING VERBOSITIES)
    (terminal_write "  " [] ;;
     failed <- get_file_failed ;;
     if failed then terminal_line "FAIL" [red]
     else
       has_skips <- get_file_has_skips ;;
       if has_skips then terminal_line "PASS" [yellow]
       else terminal_line "PASS" [green]).

(** The four test events; their arguments [test] and [result] are
    not used. *)
Definition report_test_success : M unit :=
  terminal_write "." [].

Definition report_test_skip : M unit :=
  terminal_write "s" [yellow] ;;
  set_file_has_skips true.

Definition report_test_error : M unit :=
  set_file_failed true ;;
  terminal_write "E" [red].

Definition report_test_failure : M unit :=
  set_file_failed true ;;
  terminal_write "F" [red].

End Reporter.

(** ** What a rendering writes

    The calls a method makes on the terminal, as functions of the
    threshold and of the data rendered. The lemmas of the next part
    show that the methods make exactly these calls. *)

Section Rendering.

Variable VERBOSITIES : Verbosities.
Variable lvl : Z.

Definition newline : string := String Py.LF "".

Fixpoint frame_items_events (index : nat) (items : list (string * string))
  : list event :=
  match items with
  | [] => []
  | (name, value) :: rest =>
      (if (0 <? index)%nat then [Write ", " []] else [])
        ++ [Write (name ++ ": ") [cyan; blink]; Write value []]
        ++ frame_items_events (S index) rest
  end.

Definition frame_locals_events (frame : Frame) : list event :=
  if lvl <=? WARNING VERBOSITIES then
    match locals frame ++ globals frame with
    | [] => []
    | items => frame_items_events 0 items ++ [Write (newline ++ newline) []]
    end
  else [].

(** The lines of a code block: a space before each line, [>] before
    the last one. *)
Fixpoint code_block_events (code_lines : list string) : list event :=
  match code_lines with
  | [] => []
  | [line] =>
      [Write ">" [white; bold]; Write line [white; bold]; Write newline []]
  | line :: rest =>
      [Write " " []; Write line [white; bold]; Write newline []]
        ++ code_block_events rest
  end.

Definition frame_code_lines (frame : Frame) : list string :=
  if lvl <=? WARNING VERBOSITIES
  then Py.splitlines (code_string frame)
  else [code_line frame].

Definition frame_code_events (frame : Frame) : list event :=
  match code_string frame with
  | EmptyString => []
  | _ => code_block_events (frame_code_lines frame)
  end.

(** The marker line as [_report_error] writes it. *)
Definition marker_line_events (error : Error) (marker : string)
  : list event :=
  [Write marker [red; bold]; Write "" [];
   Write (message error) [red; bold]; Write newline []].

Definition frame_position_event (frame : Frame) : event :=
  Write (filename frame ++ ":" ++ Py.str_int (lineno frame) ++ ":"
           ++ newline) [].

(** One frame, without the rule that may precede it. *)
Definition frame_events (error : Error) (marker : string)
  (is_last : bool) (frame : Frame) : list event :=
  frame_locals_events frame
    ++ frame_code_events frame
    ++ (if is_last then marker_line_events error marker else [])
    ++ [frame_position_event frame].

Definition thin_rule : event := Sep "- " None [].

(** Frames in order, a thin rule before each frame but the first; the
    last frame carries the marker line. *)
Fixpoint frames_events (error : Error) (marker : string)
  (frames : list Frame) : list event :=
  match frames with
  | [] => []
  | [frame] => frame_events error marker true frame
  | frame :: rest =>
      frame_events error marker false frame
        ++ thin_rule :: frames_events error marker rest
  end.

(** The frames [_report_error] selects; [frames[-1]] needs a frame. *)
Definition selected_frames (error : Error) : list Frame :=
  match traceback error with
  | None => []
  | Some tb =>
      if lvl >? WARNING VERBOSITIES
      then match rev (frames tb) with f :: _ => [f] | [] => [] end
      else frames tb
  end.

Definition has_innermost (error : Error) : bool :=
  match traceback error with
  | None => true
  | Some tb =>
      if lvl >? WARNING VERBOSITIES
      then Py.truthy_list (frames tb)
      else true
  end.

Definition error_events (error : Error) (marker : string) : list event :=
  frames_events error marker (selected_frames error).

Definition location_rule (result : Result) : event :=
  Sep "_" (Some (_get_location result)) [].

Definition title_rule (title : string) : event :=
  Sep "=" (Some title) [].

Definition group_events (marker : string) (group : Result * list Error)
  : list event :=
  flat_map (fun error =>
              location_rule (fst group) :: error_events error marker)
           (snd group).

Definition section_events (title : string)
  (groups : list (Result * list Error)) (marker : string) : list event :=
  title_rule title :: flat_map (group_events marker) groups.

Definition concise_line_events (result : Result) : list event :=
  match get_errors result, get_failures result with
  | [], [] => []
  | errors, failures =>
      [Write (_get_location result) []; Write ":" []]
        ++ (match errors with
            | [] => []
            | _ => [Write (" " ++ Py.str_int (Z.of_nat (List.length errors))
                             ++ " errors") []]
            end)
        ++ (match failures with
            | [] => []
            | _ => [Write (" " ++ Py.str_int (Z.of_nat (List.length failures))
                             ++ " failures") []]
            end)
        ++ [Write newline []]
  end.

Definition closing_rule (session : Session) : event :=
  Sep "=" (Some (fst (session_end_message session)))
      (snd (session_end_message session)).

Definition leading_break : list event :=
  if lvl >? WARNING VERBOSITIES then [Write newline []] else [].

Definition detailed_events (session : Session) : list event :=
  section_events "FAILURES" (iter_all_failures (results session)) "F"
    ++ section_events "ERRORS" (iter_all_errors (results session)) "E".

Definition concise_events (session : Session) : list event :=
  flat_map concise_line_events (iter_all_results (results session)).

(** The calls of [report_session_end]. *)
Definition session_end_events (session : Session) : list event :=
  leading_break
    ++ (if lvl <=? ERROR VERBOSITIES then detailed_events session
        else if lvl <=? CRITICAL VERBOSITIES then concise_events session
        else [])
    ++ [closing_rule session].

(** Every error that the detailed sections render has the frame that
    its rendering indexes: [frames[-1]] is evaluated only when
    [WARNING < lvl <= ERROR], on errors that carry a traceback. *)
Definition renderable (session : Session) : bool :=
  negb (lvl <=? ERROR VERBOSITIES)
  || forallb (fun group => forallb has_innermost (snd group))
             (iter_all_failures (results session)
                ++ iter_all_errors (results session)).


(** The marker line as the specification words it: the marker, the
    leading whitespace of the last printed code line, the message, a
    line break. *)
Definition last_code_line (frame : Frame) : string :=
  match code_string frame with
  | EmptyString => ""
  | _ => List.last (frame_code_lines frame) ""
  end.

Definition aligned_marker_line_events (error : Error) (marker : string)
  (frame : Frame) : list event :=
  [Write marker [red; bold];
   Write (Py.takewhile Py.isspace (last_code_line frame)) [];
   Write (message error) [red; bold]; Write newline []].

End Rendering.

(** ** The specification's wording of the closing line *)






(** ** A file as the runner reports it

    The runner reports a file as a file start, one event per test and a
    file end. *)

Inductive test_outcome : Type := Success | Skip | Errored | Failed.

Definition report_test (o : test_outcome) : M unit :=
  match o with
  | Success => report_test_success
  | Skip => report_test_skip
  | Errored => report_test_error
  | Failed => report_test_failure
  end.

Definition report_file (V : Verbosities) (filename : string)
  (outcomes : list test_outcome) : M unit :=
  report_file_start V filename ;;
  for_each outcomes report_test ;;
  report_file_end V filename.

Definition marker_of (o : test_outcome) : event :=
  match o with
  | Success => Write "." []
  | Skip => Write "s" [yellow]
  | Errored => Write "E" [red]
  | Failed => Write "F" [red]
  end.

Definition is_bad (o : test_outcome) : bool :=
  match o with Errored | Failed => true | _ => false end.

Definition is_skip (o : test_outcome) : bool :=
  match o with Skip => true | _ => false end.

Definition verdict (outcomes : list test_outcome) : event :=
  if existsb is_bad outcomes then Line "FAIL" [red]
  else if existsb is_skip outcomes then Line "PASS" [yellow]
  else Line "PASS" [green].

(** The reporter object a call leaves behind. *)
Definition after {A : Type} (m : M A) (self : ConsoleReporter)
  : ConsoleReporter :=
  match m self with
  | Ok _ self' => self'
  | Raise _ self' => self'
  end.

(** ** Sample data *)

Module Sample.

(** An assignment of the levels with [WARNING < ERROR < CRITICAL]. *)
Definition levels : Verbosities :=
  {| WARNING := 13; ERROR := 14; CRITICAL := 15 |}.

Definition outer : Frame :=
  {| filename := "runner.py"; lineno := 40;
     code_line := "    test()";
     code_string := "for test in tests:" ++ newline ++ "    test()";
     locals := []; globals := [("debug", "False")] |}.

Definition inner : Frame :=
  {| filename := "test_math.py"; lineno := 12;
     code_line := "    assert x == 3";
     code_string := "def test_add():" ++ newline ++ "    x = add(1, 1)"
                      ++ newline ++ "    assert x == 3";
     locals := [("x", "2")]; globals := [] |}.

(** A frame whose full excerpt is missing although its line is known. *)
Definition bare : Frame :=
  {| filename := "lib.py"; lineno := 7;
     code_line := "    return 1 / 0";
     code_string := "";
     locals := []; globals := [] |}.

Definition boom : Error :=
  {| message := "assert 2 == 3";
     traceback := Some {| frames := [outer; inner] |} |}.

Definition plain : Error :=
  {| message := "interrupted"; traceback := None |}.

(** A traceback object without frames. *)
Definition hollow : Error :=
  {| message := "lost"; traceback := Some {| frames := [] |} |}.

Definition test_add : Result :=
  {| test_metadata := Some {| fqn := "test_math.py:test_add" |};
     get_errors := [plain; plain];
     get_failures := [boom] |}.

Definition test_ok : Result :=
  {| test_metadata := Some {| fqn := "test_math.py:test_ok" |};
     get_errors := [];
     get_failures := [] |}.

Definition global_result : Result :=
  {| test_metadata := None; get_errors := [plain]; get_failures := [] |}.

Definition failed_session : Session :=
  {| results :=
       {| is_success := false;
          get_num_failures := 1;
          get_num_errors := 3;
          iter_all_failures := [(test_add, [boom])];
          iter_all_errors :=
            [(test_add, [plain; plain]); (global_result, [plain])];
          iter_all_results := [test_add; test_ok; global_result] |};
     duration := 37259 # 10 |}.

Definition clean_session : Session :=
  {| results :=
       {| is_success := true;
          get_num_failures := 0;
          get_num_errors := 0;
          iter_all_failures := [];
          iter_all_errors := [];
          iter_all_results := [test_ok] |};
     duration := 360000 # 1 |}.

Definition hollow_result : Result :=
  {| test_metadata := None; get_errors := []; get_failures := [hollow] |}.

Definition hollow_session : Session :=
  {| results :=
       {| is_success := false;
          get_num_failures := 1;
          get_num_errors := 0;
          iter_all_failures := [(hollow_result, [hollow])];
          iter_all_errors := [];
          iter_all_results := [hollow_result] |};
     duration := 1 # 2 |}.

(** A reporter in the middle of a file, after a failure and a skip. *)
Definition busy (level : Z) : ConsoleReporter :=
  after (report_file_start levels "test_math.py" ;;
         report_test_failure ;;
         report_test_skip)
        (__init__ level).

(** In the middle of a file, after a success and a skip. *)
Definition skipping (level : Z) : ConsoleReporter :=
  after (report_file_start levels "test_math.py" ;;
         report_test_success ;;
         report_test_skip)
        (__init__ level).

(** In the middle of a file, after a success. *)
Definition passing (level : Z) : ConsoleReporter :=
  after (report_file_start levels "test_math.py" ;;
         report_test_success)
        (__init__ level).

End Sample.

(** ** Notions for the properties of whole renderings *)

(** A local or global as it is printed. *)
Definition item_text (item : string * string) : string :=
  fst item ++ ": " ++ snd item.

(** The titles of the location rules among the calls, in order. *)
Fixpoint location_titles (evs : list event) : list string :=
  match evs with
  | [] => []
  | Sep sepchar (Some title) _ :: rest =>
      if String.eqb sepchar "_"
      then title :: location_titles rest
      else location_titles rest
  | _ :: rest => location_titles rest
  end.

(** [m] only makes calls on the terminal, whether it returns or raises:
    threshold and flags are as before. *)
Definition appends {A : Type} (m : M A) : Prop :=
  forall self, exists evs, after m self = emit_to self evs.

(** [m] keeps the threshold and what the terminal already holds. *)
Definition extends {A : Type} (m : M A) : Prop :=
  forall self,
    _level (after m self) = _level self
    /\ exists evs, _terminal (after m self) = _terminal self ++ evs.


(** The flags after test events that found them as [flag]: an event
    that sets the flag leaves it true, otherwise it is as before. *)
Definition flag_after (hit : bool) (flag : option bool) : option bool :=
  if hit then Some true else flag.

(** ** Reasoning about methods that only write *)

(** [emits lvl m evs]: on a reporter of threshold [lvl], [m] returns
    after making exactly the calls [evs] on the terminal, and changes
    nothing else. *)
Definition emits (lvl : Z) (m : M unit) (evs : list event) : Prop :=
  forall self, _level self = lvl -> m self = Ok tt (emit_to self evs).

Lemma emit_to_nil self : emit_to self [] = self.
Proof. destruct self; unfold emit_to; simpl; now rewrite app_nil_r. Qed.

Lemma emit_to_app self a b :
  emit_to (emit_to self a) b = emit_to self (a ++ b).
Proof. unfold emit_to; simpl; now rewrite app_assoc. Qed.

Lemma emit_to_level self evs : _level (emit_to self evs) = _level self.
Proof. reflexivity. Qed.

Lemma emits_ret lvl : emits lvl (ret tt) [].
Proof. intros self _; unfold ret; now rewrite emit_to_nil. Qed.

Lemma emits_bind lvl (m : M unit) (k : unit -> M unit) a b :
  emits lvl m a -> emits lvl (k tt) b -> emits lvl (bind m k) (a ++ b).
Proof.
  intros Hm Hk self Hl; unfold bind.
  rewrite (Hm self Hl), (Hk (emit_to self a)) by now rewrite emit_to_level.
  now rewrite emit_to_app.
Qed.

Lemma emits_get_level lvl (k : Z -> M unit) evs :
  emits lvl (k lvl) evs -> emits lvl (bind get_level k) evs.
Proof.
  intros Hk self Hl; unfold bind, get_level; rewrite Hl; now apply Hk.
Qed.

Lemma emits_write lvl msg kw : emits lvl (terminal_write msg kw) [Write msg kw].
Proof. now intros self _. Qed.

Lemma emits_line lvl s kw : emits lvl (terminal_line s kw) [Line s kw].
Proof. now intros self _. Qed.

Lemma emits_sep lvl c title kw :
  emits lvl (terminal_sep c title kw) [Sep c title kw].
Proof. now intros self _. Qed.

Lemma emits_when lvl (b : bool) m evs :
  emits lvl m evs -> emits lvl (when b m) (if b then evs else []).
Proof. destruct b; simpl; auto using emits_ret. Qed.

Lemma emits_eq lvl m a b : emits lvl m a -> a = b -> emits lvl m b.
Proof. now intros H <-. Qed.

Lemma emits_write_then lvl msg kw (m : M unit) evs :
  emits lvl m evs ->
  emits lvl (terminal_write msg kw ;; m) (Write msg kw :: evs).
Proof. intros H; apply (emits_bind _ _ _ [_]); [apply emits_write|exact H]. Qed.

Lemma emits_sep_then lvl c title kw (m : M unit) evs :
  emits lvl m evs ->
  emits lvl (terminal_sep c title kw ;; m) (Sep c title kw :: evs).
Proof. intros H; apply (emits_bind _ _ _ [_]); [apply emits_sep|exact H]. Qed.

Lemma emits_for_each {A : Type} lvl (xs : list A) body (f : A -> list event) :
  (forall x, In x xs -> emits lvl (body x) (f x)) ->
  emits lvl (for_each xs body) (flat_map f xs).
Proof.
  induction xs as [|x rest IH]; simpl; intros H.
  - apply emits_ret.
  - apply emits_bind; [apply H; now left|].
    apply IH; intros y Hy; apply H; now right.
Qed.

Lemma emits_from_verbosity lvl level m evs :
  emits lvl m evs ->
  emits lvl (from_verbosity level m) (if lvl <=? level then evs else []).
Proof.
  intros H; unfold from_verbosity; apply emits_get_level.
  destruct (lvl <=? level); auto using emits_ret.
Qed.

(** ** The frame renderers write what [Rendering] says *)

Section RenderingLemmas.

Variable V : Verbosities.
Variable lvl : Z.

Lemma _write_frame_local_emits index items :
  emits lvl (for_each_indexed index items _write_frame_local)
        (frame_items_events index items).
Proof.
  revert index; induction items as [|[name value] rest IH]; intros index.
  - apply emits_ret.
  - cbn [for_each_indexed frame_items_events _write_frame_local].
    rewrite app_assoc.
    apply emits_bind; [|apply IH].
    apply emits_bind; [apply emits_when, emits_write|].
    apply emits_write_then, emits_write.
Qed.

Lemma _write_frame_locals_emits frame :
  emits lvl (_write_frame_locals V frame) (frame_locals_events V lvl frame).
Proof.
  unfold _write_frame_locals, frame_locals_events.
  eapply emits_eq; [apply emits_from_verbosity|reflexivity].
  destruct (locals frame) as [|l ls]; [destruct (globals frame) as [|g gs]|];
      cbn [Py.truthy_list negb andb app];
      try apply emits_ret;
      (apply emits_bind; [apply _write_frame_local_emits|apply emits_write]).
Qed.

Lemma iteration_from_cons {A : Type} b (x y : A) rest :
  iteration_from b (x :: y :: rest)
  = ({| first := b; last := false |}, x) :: iteration_from false (y :: rest).
Proof. reflexivity. Qed.

Lemma code_lines_emit b code_lines :
  emits lvl (for_each (iteration_from b code_lines) _write_code_line)
        (code_block_events code_lines).
Proof.
  revert b; induction code_lines as [|line rest IH]; intros b.
  - apply emits_ret.
  - destruct rest as [|line' rest].
    + cbn. eapply emits_eq; [apply emits_bind; [|apply emits_ret]|].
      * do 2 apply emits_write_then; apply emits_write.
      * reflexivity.
    + rewrite iteration_from_cons.
      cbn [for_each code_block_events _write_code_line last].
      apply emits_bind; [|apply IH].
      do 2 apply emits_write_then; apply emits_write.
Qed.

Lemma _write_frame_code_emits frame :
  emits lvl (_write_frame_code V frame) (frame_code_events V lvl frame).
Proof.
  unfold _write_frame_code, frame_code_events, frame_code_lines.
  destruct (code_string frame); cbn [Py.truthy_str].
  - apply emits_ret.
  - apply emits_get_level, code_lines_emit.
Qed.

Lemma _report_frame_emits error marker it frame :
  emits lvl (_report_frame V error marker (it, frame))
        ((if negb (first it) then [thin_rule] else [])
           ++ frame_events V lvl error marker (last it) frame).
Proof.
  unfold _report_frame, frame_events.
  apply emits_bind; [apply emits_when, emits_sep|].
  apply emits_bind; [apply _write_frame_locals_emits|].
  apply emits_bind; [apply _write_frame_code_emits|].
  apply emits_bind; [|apply emits_write].
  apply emits_when.
  do 3 apply emits_write_then; apply emits_write.
Qed.

End RenderingLemmas.

Section ErrorLemmas.

Variable V : Verbosities.
Variable lvl : Z.

Lemma frames_loop_emits error marker b fs :
  emits lvl (for_each (iteration_from b fs) (_report_frame V error marker))
        (match fs with
         | [] => []
         | _ => (if negb b then [thin_rule] else [])
                  ++ frames_events V lvl error marker fs
         end).
Proof.
  revert b; induction fs as [|f rest IH]; intros b.
  - apply emits_ret.
  - destruct rest as [|g rest].
    + cbn [iteration_from for_each Py.truthy_list negb frames_events].
      eapply emits_eq;
        [apply emits_bind; [apply _report_frame_emits|apply emits_ret]|].
      cbn [first last]. now rewrite app_nil_r.
    + rewrite iteration_from_cons. cbn [for_each frames_events].
      eapply emits_eq;
        [apply emits_bind; [apply _report_frame_emits|apply IH]|].
      cbn [first last negb]. now rewrite <- !app_assoc.
Qed.

Lemma _report_error_emits error marker :
  has_innermost V lvl error = true ->
  emits lvl (_report_error V error marker) (error_events V lvl error marker).
Proof.
  unfold has_innermost, error_events, selected_frames, _report_error.
  unfold iteration. intros Hin self Hl.
  destruct (traceback error) as [tb|].
  - unfold bind at 1 2, get_level. rewrite Hl.
    destruct (lvl >? WARNING V).
    + unfold index_last, bind.
      destruct (rev (frames tb)) as [|f outer] eqn:Hrev.
      * apply (f_equal (@rev Frame)) in Hrev. rewrite rev_involutive in Hrev.
        rewrite Hrev in Hin. discriminate.
      * unfold ret at 1 2.
        rewrite (frames_loop_emits error marker true [f] self Hl).
        reflexivity.
    + unfold ret at 1.
      rewrite (frames_loop_emits error marker true (frames tb) self Hl).
      now destruct (frames tb).
  - unfold bind, ret; cbn. now rewrite emit_to_nil.
Qed.

(** Without a frame to index, [frames[-1]] raises before anything is
    written. *)
Lemma _report_error_raises error marker tb self :
  _level self = lvl ->
  traceback error = Some tb ->
  frames tb = [] ->
  lvl > WARNING V ->
  _report_error V error marker self = Raise IndexError self.
Proof.
  intros Hl Htb Hfs Hgt. unfold _report_error. rewrite Htb.
  unfold bind at 1 2, get_level. rewrite Hl.
  apply Z.gtb_gt in Hgt. rewrite Hgt.
  unfold index_last. now rewrite Hfs.
Qed.

Lemma group_emits marker (group : Result * list Error) :
  forallb (has_innermost V lvl) (snd group) = true ->
  emits lvl
    (let '(result, errors) := group in
     let location := _get_location result in
     for_each errors (fun error =>
       terminal_sep "_" (Some location) [] ;;
       _report_error V error marker))
    (group_events V lvl marker group).
Proof.
  destruct group as [result errors]; cbn [snd]. intros Hall.
  unfold group_events; cbn [fst snd].
  apply emits_for_each. intros e He.
  apply emits_sep_then, _report_error_emits.
  rewrite forallb_forall in Hall. now apply Hall.
Qed.

Lemma _report_error_objects_emits title groups marker :
  forallb (fun group => forallb (has_innermost V lvl) (snd group)) groups
    = true ->
  emits lvl (_report_error_objects V title groups marker)
        (section_events V lvl title groups marker).
Proof.
  intros Hall. unfold _report_error_objects, section_events, title_rule.
  apply emits_sep_then.
  apply emits_for_each with (f := group_events V lvl marker).
  intros group Hg. apply group_emits.
  rewrite forallb_forall in Hall. now apply Hall.
Qed.

Lemma _report_result_concise_emits result :
  emits lvl (_report_result_concise result) (concise_line_events result).
Proof.
  unfold _report_result_concise, concise_line_events.
  destruct (get_errors result) as [|e es], (get_failures result) as [|f fs];
    cbn [Py.truthy_list orb when];
    try apply emits_ret;
    do 2 apply emits_write_then.
  - apply (emits_bind _ _ _ []); [apply emits_ret|].
    apply emits_write_then, emits_write.
  - apply emits_write_then.
    apply (emits_bind _ _ _ []); [apply emits_ret|apply emits_write].
  - do 2 apply emits_write_then. apply emits_write.
Qed.

Lemma _report_failures_and_errors_concise_emits session :
  emits lvl (_report_failures_and_errors_concise session)
        (concise_events session).
Proof.
  unfold _report_failures_and_errors_concise, concise_events.
  apply emits_for_each. intros r _. apply _report_result_concise_emits.
Qed.

Lemma report_session_end_emits session :
  renderable V lvl session = true ->
  emits lvl (report_session_end V session)
        (session_end_events V lvl session).
Proof.
  intros Hr. unfold report_session_end, session_end_events.
  apply emits_get_level.
  apply emits_bind.
  { unfold leading_break. apply emits_when, emits_write. }
  apply emits_bind.
  - unfold renderable in Hr. destruct (lvl <=? ERROR V).
    + cbn [negb orb] in Hr.
      rewrite forallb_app in Hr. apply andb_prop in Hr as [Hf He].
      unfold detailed_events.
      apply emits_bind; apply _report_error_objects_emits; assumption.
    + destruct (lvl <=? CRITICAL V).
      * apply _report_failures_and_errors_concise_emits.
      * apply emits_ret.
  - unfold closing_rule.
    destruct (session_end_message session) as [msg kw]. apply emits_sep.
Qed.

End ErrorLemmas.

(** ** Durations *)











(** ** Frame selection and frame rendering *)

Lemma splitlines_from_nonempty (cur s : string) :
  (cur <> "" \/ s <> "")%string -> Py.splitlines_from cur s <> [].
Proof.
  revert cur. induction s as [|c rest IH]; intros cur H.
  - destruct cur; [now destruct H|discriminate].
  - cbn [Py.splitlines_from].
    destruct (Py.is_linebreak c).
    + destruct rest as [|d rest']; [discriminate|].
      destruct (Ascii.eqb c Py.CR && Ascii.eqb d Py.LF)%bool; discriminate.
    + apply IH. left. discriminate.
Qed.

Lemma code_block_events_last (lines : list string) (line : string) :
  code_block_events (lines ++ [line])
  = flat_map (fun l => [Write " " []; Write l [white; bold];
                        Write newline []]) lines
      ++ [Write ">" [white; bold]; Write line [white; bold];
          Write newline []].
Proof.
  induction lines as [|l rest IH]; [reflexivity|].
  cbn [app flat_map code_block_events].
  destruct (rest ++ [line]) eqn:E; [now destruct rest|].
  rewrite IH. reflexivity.
Qed.

(** C1. Frame selection in [_report_error]: an error without traceback
    renders no frame, and after its location rule nothing at all is
    written for it; above WARNING only the innermost frame is rendered,
    as the single frame; at WARNING or below every frame is rendered,
    outermost first, with a thin rule before each frame after the
    first. *)
Theorem report_error_frame_selection
  (V : Verbosities) (error : Error) (marker : string)
  (self : ConsoleReporter) :
  (traceback error = None ->
   _report_error V error marker self = Ok tt self
   /\ forall location,
       (terminal_sep "_" (Some location) [] ;;
        _report_error V error marker) self
       = Ok tt (emit_to self [Sep "_" (Some location) []]))
  /\ (forall tb outer f,
       traceback error = Some tb ->
       frames tb = outer ++ [f] ->
       _level self > WARNING V ->
       _report_error V error marker self
       = Ok tt (emit_to self
                  (frame_events V (_level self) error marker true f)))
  /\ (forall tb,
       traceback error = Some tb ->
       _level self <= WARNING V ->
       _report_error V error marker self
       = Ok tt (emit_to self
                  (frames_events V (_level self) error marker (frames tb)))).
Proof.
  split; [|split].
  - intros Hnone.
    assert (H : emits (_level self) (_report_error V error marker) []).
    { eapply emits_eq; [apply _report_error_emits|].
      - unfold has_innermost. now rewrite Hnone.
      - unfold error_events, selected_frames. now rewrite Hnone. }
    split.
    + rewrite (H self eq_refl). now rewrite emit_to_nil.
    + intros location.
      now rewrite (emits_sep_then _ _ _ _ _ _ H self eq_refl).
  - intros tb outer f Htb Hfs Hgt.
    apply Z.gtb_gt in Hgt.
    rewrite (_report_error_emits V (_level self) error marker); trivial.
    + unfold error_events, selected_frames.
      rewrite Htb, Hgt, Hfs, rev_app_distr. reflexivity.
    + unfold has_innermost. rewrite Htb, Hgt, Hfs. now destruct outer.
  - intros tb Htb Hle.
    assert (Hgt : (_level self >? WARNING V) = false).
    { rewrite Z.gtb_ltb. apply Z.ltb_ge. exact Hle. }
    rewrite (_report_error_emits V (_level self) error marker); trivial.
    + unfold error_events, selected_frames. now rewrite Htb, Hgt.
    + unfold has_innermost. now rewrite Htb, Hgt.
Qed.

Lemma report_error_frame_selection_witness :
  _report_error Sample.levels Sample.plain "E" (Sample.busy 14)
  = Ok tt (Sample.busy 14)
  /\ _report_error Sample.levels Sample.boom "F" (Sample.busy 14)
     = Ok tt (emit_to (Sample.busy 14)
                (frame_events Sample.levels 14 Sample.boom "F" true
                   Sample.inner))
  /\ _report_error Sample.levels Sample.boom "F" (Sample.busy 13)
     = Ok tt (emit_to (Sample.busy 13)
                (frames_events Sample.levels 13 Sample.boom "F"
                   [Sample.outer; Sample.inner])).
Proof.
  split; [|split].
  - apply (proj1 (report_error_frame_selection
                    Sample.levels Sample.plain "E" (Sample.busy 14))).
    reflexivity.
  - apply (proj1 (proj2 (report_error_frame_selection
                           Sample.levels Sample.boom "F" (Sample.busy 14)))
             {| frames := [Sample.outer; Sample.inner] |} [Sample.outer]).
    + reflexivity.
    + reflexivity.
    + reflexivity.
  - apply (proj2 (proj2 (report_error_frame_selection
                           Sample.levels Sample.boom "F" (Sample.busy 13)))
             {| frames := [Sample.outer; Sample.inner] |}).
    + reflexivity.
    + discriminate.
Defined.

(** C10. The code block of a frame is written only when the frame's
    full excerpt [code_string] is not empty: with an empty [code_string]
    [_write_frame_code] writes nothing at any threshold, whatever
    [code_line] holds; with a non-empty one it writes the single
    [code_line] behind [>] above WARNING, and the lines of [code_string],
    the last one behind [>], at WARNING or below. *)
Theorem write_frame_code_gated_by_code_string
  (V : Verbosities) (frame : Frame) (self : ConsoleReporter) :
  (code_string frame = ""%string -> _write_frame_code V frame self = Ok tt self)
  /\ (code_string frame <> ""%string ->
      _level self > WARNING V ->
      _write_frame_code V frame self
      = Ok tt (emit_to self [Write ">" [white; bold];
                             Write (code_line frame) [white; bold];
                             Write newline []]))
  /\ (code_string frame <> ""%string ->
      _level self <= WARNING V ->
      exists lines line,
        Py.splitlines (code_string frame) = lines ++ [line]
        /\ _write_frame_code V frame self
           = Ok tt (emit_to self
                      (flat_map (fun l => [Write " " []; Write l [white; bold];
                                           Write newline []]) lines
                         ++ [Write ">" [white; bold]; Write line [white; bold];
                             Write newline []]))).
Proof.
  pose proof (_write_frame_code_emits V (_level self) frame self eq_refl) as H.
  unfold frame_code_events, frame_code_lines in H.
  split; [|split].
  - intros E. rewrite E in H. now rewrite emit_to_nil in H.
  - intros Hne Hgt. rewrite H.
    assert (Hle : (_level self <=? WARNING V) = false) by (apply Z.leb_gt; lia).
    rewrite Hle. now destruct (code_string frame).
  - intros Hne Hle.
    assert (Hb : (_level self <=? WARNING V) = true) by (apply Z.leb_le; lia).
    rewrite Hb in H.
    destruct (exists_last (splitlines_from_nonempty "" (code_string frame)
                             (or_intror Hne))) as (lines & line & E).
    change (Py.splitlines_from "" (code_string frame))
      with (Py.splitlines (code_string frame)) in E.
    exists lines, line. split; [exact E|].
    rewrite H, E.
    rewrite code_block_events_last. now destruct (code_string frame).
Qed.

Lemma write_frame_code_gated_by_code_string_witness :
  _write_frame_code Sample.levels Sample.bare (Sample.busy 14)
  = Ok tt (Sample.busy 14)
  /\ _write_frame_code Sample.levels Sample.bare (Sample.busy 13)
     = Ok tt (Sample.busy 13)
  /\ _write_frame_code Sample.levels Sample.inner (Sample.busy 14)
     = Ok tt (emit_to (Sample.busy 14)
                [Write ">" [white; bold];
                 Write "    assert x == 3" [white; bold];
                 Write newline []])
  /\ exists lines line,
       Py.splitlines (code_string Sample.inner) = lines ++ [line]
       /\ _write_frame_code Sample.levels Sample.inner (Sample.busy 13)
          = Ok tt (emit_to (Sample.busy 13)
                     (flat_map (fun l => [Write " " []; Write l [white; bold];
                                          Write newline []]) lines
                        ++ [Write ">" [white; bold]; Write line [white; bold];
                            Write newline []])).
Proof.
  split; [|split; [|split]].
  - apply (proj1 (write_frame_code_gated_by_code_string
                    Sample.levels Sample.bare (Sample.busy 14))).
    reflexivity.
  - apply (proj1 (write_frame_code_gated_by_code_string
                    Sample.levels Sample.bare (Sample.busy 13))).
    reflexivity.
  - apply (proj1 (proj2 (write_frame_code_gated_by_code_string
                           Sample.levels Sample.inner (Sample.busy 14)))).
    + discriminate.
    + reflexivity.
  - apply (proj2 (proj2 (write_frame_code_gated_by_code_string
                           Sample.levels Sample.inner (Sample.busy 13)))).
    + discriminate.
    + discriminate.
Defined.

(** C3. What follows the code block of the last rendered frame: the
    marker, then the empty string, then the message, then a line break.
    The string written between marker and message is computed from the
    variable [line] of [_report_error], which is always empty, and not
    from the last printed code line: on [Sample.boom] at WARNING the last
    printed line starts with four spaces and none of them is written. *)
Theorem marker_line_ignores_code_indentation :
  (forall V error marker b frame self,
      _report_frame V error marker ({| first := b; last := true |}, frame) self
      = Ok tt (emit_to self
                 ((if negb b then [thin_rule] else [])
                    ++ frame_locals_events V (_level self) frame
                    ++ frame_code_events V (_level self) frame
                    ++ [Write marker [red; bold]; Write "" [];
                        Write (message error) [red; bold]; Write newline []]
                    ++ [frame_position_event frame])))
  /\ Py.takewhile Py.isspace (last_code_line Sample.levels 13 Sample.inner)
     = "    "%string
  /\ aligned_marker_line_events Sample.levels 13 Sample.boom "F" Sample.inner
     = [Write "F" [red; bold]; Write "    " [];
        Write "assert 2 == 3" [red; bold]; Write newline []]
  /\ _report_error Sample.levels Sample.boom "F" (__init__ 13)
     = Ok tt (emit_to (__init__ 13)
                (frame_events Sample.levels 13 Sample.boom "F" false
                   Sample.outer
                   ++ [thin_rule;
                       Write "x: " [cyan; blink]; Write "2" [];
                       Write (newline ++ newline) [];
                       Write " " []; Write "def test_add():" [white; bold];
                       Write newline [];
                       Write " " []; Write "    x = add(1, 1)" [white; bold];
                       Write newline [];
                       Write ">" [white; bold];
                       Write "    assert x == 3" [white; bold];
                       Write newline [];
                       Write "F" [red; bold]; Write "" [];
                       Write "assert 2 == 3" [red; bold]; Write newline [];
                       Write ("test_math.py:12:" ++ newline) []])).
Proof.
  split; [|split; [|split]]; try reflexivity.
  intros V error marker b frame self.
  exact (_report_frame_emits V (_level self) error marker
           {| first := b; last := true |} frame self eq_refl).
Qed.

(** ** Strings *)









(** ** The end of the session *)










(** ** The duration of the closing line *)





(** ** Progress markers and the per-file flags *)

Lemma report_file_start_runs
  (V : Verbosities) (filename : string) (self : ConsoleReporter) :
  _level self <= WARNING V ->
  report_file_start V filename self
  = Ok tt (with_flags (emit_to self [Write filename []; Write " " []])
             (Some false) (Some false)).
Proof.
  intros Hle. apply Z.leb_le in Hle.
  unfold report_file_start, from_verbosity, bind, get_level.
  rewrite Hle.
  unfold set_file_failed, set_file_has_skips, terminal_write, with_flags,
    emit_to; cbn.
  now rewrite <- app_assoc.
Qed.

(** C6. At every threshold each of [report_test_success],
    [report_test_skip], [report_test_error] and [report_test_failure]
    makes one [write] call, of the character [.], [s], [E], [F]; the
    skip sets [_file_has_skips], the error and the failure set
    [_file_failed], and nothing else changes. [report_file_start], when
    the threshold is at most WARNING, sets both flags to false and writes
    the file name and a space. *)
Theorem test_markers_and_file_flags
  (V : Verbosities) (self : ConsoleReporter) :
  report_test_success self = Ok tt (emit_to self [Write "." []])
  /\ report_test_skip self
     = Ok tt (with_flags (emit_to self [Write "s" [yellow]])
                (_file_failed self) (Some true))
  /\ report_test_error self
     = Ok tt (with_flags (emit_to self [Write "E" [red]])
                (Some true) (_file_has_skips self))
  /\ report_test_failure self
     = Ok tt (with_flags (emit_to self [Write "F" [red]])
                (Some true) (_file_has_skips self))
  /\ (forall filename,
         _level self <= WARNING V ->
         report_file_start V filename self
         = Ok tt (with_flags
                    (emit_to self [Write filename []; Write " " []])
                    (Some false) (Some false))).
Proof.
  repeat split. intros filename. apply report_file_start_runs.
Qed.

Lemma test_markers_and_file_flags_witness :
  report_file_start Sample.levels "test_math.py" (Sample.busy 13)
  = Ok tt (with_flags
             (emit_to (Sample.busy 13)
                [Write "test_math.py" []; Write " " []])
             (Some false) (Some false)).
Proof.
  apply (proj2 (proj2 (proj2 (proj2 (test_markers_and_file_flags
                                       Sample.levels (Sample.busy 13)))))).
  discriminate.
Defined.

(** Above WARNING [report_file_start] returns at once and a flag that
    was true stays true: the reset of C6 does not hold at every
    threshold. *)
Lemma file_start_above_warning_keeps_flags :
  report_file_start Sample.levels "test_math.py" (Sample.busy 14)
  = Ok tt (Sample.busy 14)
  /\ _file_failed (Sample.busy 14) = Some true
  /\ _file_has_skips (Sample.busy 14) = Some true
  /\ ~ (forall (V : Verbosities) (filename : string) (self : ConsoleReporter),
           exists self',
             report_file_start V filename self = Ok tt self'
             /\ _file_failed self' = Some false
             /\ _file_has_skips self' = Some false).
Proof.
  repeat split.
  intros H.
  destruct (H Sample.levels "test_math.py"%string (Sample.busy 14))
    as (self' & Hrun & Hfailed & _).
  cbv in Hrun. injection Hrun as <-. discriminate Hfailed.
Qed.

(** C7. At a threshold of at most WARNING, [report_file_end] writes two
    spaces and then the line [FAIL] in red when [_file_failed] is true,
    whatever [_file_has_skips] is; the line [PASS] in yellow when
    [_file_failed] is false and [_file_has_skips] is true; the line
    [PASS] in green when both are false. *)
Theorem file_end_verdict
  (V : Verbosities) (filename : string) (self : ConsoleReporter) :
  _level self <= WARNING V ->
  (_file_failed self = Some true ->
   report_file_end V filename self
   = Ok tt (emit_to self [Write "  " []; Line "FAIL" [red]]))
  /\ (_file_failed self = Some false ->
      _file_has_skips self = Some true ->
      report_file_end V filename self
      = Ok tt (emit_to self [Write "  " []; Line "PASS" [yellow]]))
  /\ (_file_failed self = Some false ->
      _file_has_skips self = Some false ->
      report_file_end V filename self
      = Ok tt (emit_to self [Write "  " []; Line "PASS" [green]])).
Proof.
  intros Hle. apply Z.leb_le in Hle.
  destruct self as [level terminal failed has_skips]; cbn in Hle |- *.
  unfold report_file_end, from_verbosity, bind, get_level,
    get_file_failed, get_file_has_skips, terminal_write, terminal_line,
    emit_to.
  cbn. rewrite Hle.
  split; [|split]; intros; subst; cbn; now rewrite <- app_assoc.
Qed.

Lemma file_end_verdict_witness :
  report_file_end Sample.levels "test_math.py" (Sample.busy 13)
  = Ok tt (emit_to (Sample.busy 13) [Write "  " []; Line "FAIL" [red]])
  /\ report_file_end Sample.levels "test_math.py" (Sample.skipping 13)
     = Ok tt (emit_to (Sample.skipping 13)
                [Write "  " []; Line "PASS" [yellow]])
  /\ report_file_end Sample.levels "test_math.py" (Sample.passing 13)
     = Ok tt (emit_to (Sample.passing 13)
                [Write "  " []; Line "PASS" [green]]).
Proof.
  split; [|split].
  - apply (file_end_verdict Sample.levels "test_math.py" (Sample.busy 13));
      [discriminate|reflexivity].
  - apply (file_end_verdict Sample.levels "test_math.py"
             (Sample.skipping 13));
      [discriminate|reflexivity|reflexivity].
  - apply (file_end_verdict Sample.levels "test_math.py"
             (Sample.passing 13));
      [discriminate|reflexivity|reflexivity].
Defined.

(** C8. Above WARNING, [report_file_start] and [report_file_end] return
    without writing anything and leave the reporter, its flags
    included, as it was. *)
Theorem file_events_silent_above_warning
  (V : Verbosities) (filename : string) (self : ConsoleReporter) :
  _level self > WARNING V ->
  report_file_start V filename self = Ok tt self
  /\ report_file_end V filename self = Ok tt self.
Proof.
  intros Hgt.
  assert (Hb : (_level self <=? WARNING V) = false) by (apply Z.leb_gt; lia).
  unfold report_file_start, report_file_end, from_verbosity, bind, get_level.
  now rewrite Hb.
Qed.

Lemma file_events_silent_above_warning_witness :
  report_file_start Sample.levels "test_math.py" (Sample.busy 14)
  = Ok tt (Sample.busy 14)
  /\ report_file_end Sample.levels "test_math.py" (Sample.busy 14)
     = Ok tt (Sample.busy 14).
Proof.
  apply (file_events_silent_above_warning
           Sample.levels "test_math.py" (Sample.busy 14)).
  reflexivity.
Defined.

(** Above both ERROR and CRITICAL neither summary is rendered: the
    line break and the closing rule are all that is written. *)
Lemma session_end_above_critical
  (V : Verbosities) (session : Session) (self : ConsoleReporter) :
  ERROR V < _level self ->
  CRITICAL V < _level self ->
  report_session_end V session self
  = Ok tt (emit_to self (leading_break V (_level self)
                           ++ [closing_rule session])).
Proof.
  intros He Hc.
  assert (Hbe : (_level self <=? ERROR V) = false) by (apply Z.leb_gt; lia).
  assert (Hbc : (_level self <=? CRITICAL V) = false)
    by (apply Z.leb_gt; lia).
  rewrite (report_session_end_emits V (_level self) session);
    [|unfold renderable; now rewrite Hbe|reflexivity].
  unfold session_end_events. now rewrite Hbe, Hbc.
Qed.

(** ** A whole file *)

Lemma report_tests_run (outcomes : list test_outcome)
  (self : ConsoleReporter) (failed has_skips : bool) :
  _file_failed self = Some failed ->
  _file_has_skips self = Some has_skips ->
  for_each outcomes report_test self
  = Ok tt (with_flags (emit_to self (map marker_of outcomes))
             (Some (failed || existsb is_bad outcomes)%bool)
             (Some (has_skips || existsb is_skip outcomes)%bool)).
Proof.
  revert self failed has_skips.
  induction outcomes as [|o rest IH]; intros self failed has_skips Hf Hs.
  - cbn. rewrite !orb_false_r. destruct self; cbn in *.
    unfold ret, with_flags, emit_to; cbn. now rewrite app_nil_r, Hf, Hs.
  - cbn [for_each]. unfold bind.
    assert (Hstep :
      report_test o self
      = Ok tt (with_flags (emit_to self [marker_of o])
                 (Some (failed || is_bad o)%bool)
                 (Some (has_skips || is_skip o)%bool))).
    { destruct self; cbn in Hf, Hs; subst.
      destruct o; cbn; unfold with_flags, emit_to; cbn;
        now rewrite ?orb_false_r, ?orb_true_r. }
    rewrite Hstep.
    rewrite (IH _ (failed || is_bad o)%bool (has_skips || is_skip o)%bool)
      by reflexivity.
    unfold with_flags, emit_to; cbn.
    now rewrite <- app_assoc, !orb_assoc.
Qed.

(** X11. At WARNING or below a whole file (file start, the test
    events, file end) writes the file name, a space, the markers of the
    tests, two spaces and the verdict: FAIL when a test errored or
    failed, PASS in yellow when none did and one was skipped, PASS in
    green otherwise. Whatever the flags were before, they end as the
    record of this file alone. *)
Lemma report_file_verdict (V : Verbosities) (filename : string)
  (outcomes : list test_outcome) (self : ConsoleReporter) :
  _level self <= WARNING V ->
  report_file V filename outcomes self
  = Ok tt (with_flags
             (emit_to self
                ([Write filename []; Write " " []]
                   ++ map marker_of outcomes
                   ++ [Write "  " []; verdict outcomes]))
             (Some (existsb is_bad outcomes))
             (Some (existsb is_skip outcomes))).
Proof.
  intros Hle. unfold report_file, bind at 1.
  rewrite (report_file_start_runs V filename self Hle).
  unfold bind at 1.
  rewrite (report_tests_run outcomes _ false false) by reflexivity.
  cbn [orb]. apply Z.leb_le in Hle.
  unfold report_file_end, from_verbosity, bind, get_level, get_file_failed,
    get_file_has_skips, terminal_write, terminal_line, verdict.
  cbn. rewrite Hle. unfold with_flags, emit_to; cbn.
  destruct (existsb is_bad outcomes); [|destruct (existsb is_skip outcomes)];
    cbn; now rewrite <- !app_assoc.
Qed.

(** ** Examples *)

Example splitlines_crlf :
  Py.splitlines
    (String "a" (String Py.CR (String Py.LF (String "b" (String Py.LF "")))))
  = ["a"%string; "b"%string].
Proof. reflexivity. Qed.

(** A traceback without frames: between WARNING and ERROR the rendering
    of the failure raises, after the FAILURES title and the location
    rule, and the session end is never summarised. *)
Example session_end_without_frames :
  report_session_end Sample.levels Sample.hollow_session (__init__ 14)
  = Raise IndexError
      (emit_to (__init__ 14)
         [Write newline []; Sep "=" (Some "FAILURES"%string) [];
          Sep "_" (Some "**global**"%string) []])
  /\ renderable Sample.levels 14 Sample.hollow_session = false
  /\ renderable Sample.levels 13 Sample.hollow_session = true.
Proof. repeat split. Qed.

Example file_end_before_file_start :
  report_file_end Sample.levels "test_math.py" (__init__ 13)
  = Raise AttributeError (emit_to (__init__ 13) [Write "  " []]).
Proof. reflexivity. Qed.

Example session_end_concise :
  report_session_end Sample.levels Sample.failed_session (__init__ 15)
  = Ok tt (emit_to (__init__ 15)
             [Write newline [];
              Write "test_math.py:test_add" []; Write ":" [];
              Write " 2 errors" []; Write " 1 failures" [];
              Write newline [];
              Write "**global**" []; Write ":" [];
              Write " 1 errors" []; Write newline [];
              Sep "="
                (Some "Session ended. 1 failures, 3 errors. Total duration: 01:02:05"%string)
                [bold; red]]).
Proof. reflexivity. Qed.

(** ** What the renderers never do *)

Lemma appends_ret {A : Type} (a : A) : appends (ret a).
Proof. intros self. exists []. cbn. now rewrite emit_to_nil. Qed.

Lemma appends_raise {A : Type} (e : exn) : appends (@raise A e).
Proof. intros self. exists []. cbn. now rewrite emit_to_nil. Qed.

Lemma appends_bind {A B : Type} (m : M A) (k : A -> M B) :
  appends m -> (forall a, appends (k a)) -> appends (bind m k).
Proof.
  intros Hm Hk self. destruct (Hm self) as [e1 H1].
  unfold after, bind in *. destruct (m self) as [a s1|x s1]; subst s1.
  - destruct (Hk a (emit_to self e1)) as [e2 H2]. unfold after in H2.
    exists (e1 ++ e2). rewrite <- emit_to_app.
    now destruct (k a (emit_to self e1)).
  - now exists e1.
Qed.

Lemma appends_write msg kw : appends (terminal_write msg kw).
Proof. intros self. now exists [Write msg kw]. Qed.

Lemma appends_sep c title kw : appends (terminal_sep c title kw).
Proof. intros self. now exists [Sep c title kw]. Qed.

Lemma appends_get_level : appends get_level.
Proof. intros self. exists []. cbn. now rewrite emit_to_nil. Qed.

Lemma appends_index_last {A : Type} (l : list A) : appends (index_last l).
Proof.
  unfold index_last. destruct (rev l); [apply appends_raise|apply appends_ret].
Qed.

Lemma appends_when (b : bool) (m : M unit) : appends m -> appends (when b m).
Proof. intros H. destruct b; cbn; [exact H|apply appends_ret]. Qed.

Lemma appends_for_each {A : Type} (xs : list A) (body : A -> M unit) :
  (forall x, appends (body x)) -> appends (for_each xs body).
Proof.
  intros H. induction xs as [|x rest IH]; cbn [for_each].
  - apply appends_ret.
  - apply appends_bind; auto.
Qed.

Lemma appends_for_each_indexed {A : Type} (index : nat) (xs : list A)
  (body : nat -> A -> M unit) :
  (forall i x, appends (body i x)) ->
  appends (for_each_indexed index xs body).
Proof.
  intros H. revert index. induction xs as [|x rest IH]; intros index;
    cbn [for_each_indexed].
  - apply appends_ret.
  - apply appends_bind; auto.
Qed.

Lemma appends_from_verbosity (level : Z) (m : M unit) :
  appends m -> appends (from_verbosity level m).
Proof.
  intros H. unfold from_verbosity.
  apply appends_bind; [apply appends_get_level|].
  intros lvl. destruct (lvl <=? level); [exact H|apply appends_ret].
Qed.

Ltac appends_step :=
  first
    [ apply appends_write | apply appends_sep | apply appends_get_level
    | apply appends_index_last | apply (appends_ret tt) | apply appends_ret
    | apply appends_when | apply appends_from_verbosity
    | apply appends_for_each | apply appends_for_each_indexed
    | apply appends_bind ].

Lemma _write_frame_locals_appends V frame :
  appends (_write_frame_locals V frame).
Proof.
  unfold _write_frame_locals. apply appends_from_verbosity.
  destruct (_ && _)%bool; [apply appends_ret|].
  apply appends_bind; [|intros; apply appends_write].
  apply appends_for_each_indexed. intros i [name value].
  unfold _write_frame_local. repeat (appends_step; intros).
Qed.

Lemma _write_frame_code_appends V frame : appends (_write_frame_code V frame).
Proof.
  unfold _write_frame_code. destruct (Py.truthy_str _); [|apply appends_ret].
  apply appends_bind; [apply appends_get_level|]. intros lvl.
  apply appends_for_each. intros [it line]. unfold _write_code_line.
  apply appends_bind; [destruct (last it); apply appends_write|].
  intros. repeat (appends_step; intros).
Qed.

Lemma _report_error_appends V error marker :
  appends (_report_error V error marker).
Proof.
  unfold _report_error. apply appends_bind.
  - destruct (traceback error) as [tb|]; [|apply appends_ret].
    apply appends_bind; [apply appends_get_level|]. intros lvl.
    destruct (lvl >? WARNING V); [|apply appends_ret].
    apply appends_bind; [apply appends_index_last|].
    intros. apply appends_ret.
  - intros fs. apply appends_for_each. intros [it frame].
    unfold _report_frame.
    apply appends_bind; [apply appends_when, appends_sep|]. intros.
    apply appends_bind; [apply _write_frame_locals_appends|]. intros.
    apply appends_bind; [apply _write_frame_code_appends|]. intros.
    repeat (appends_step; intros).
Qed.

Lemma _report_error_objects_appends V title iterator marker :
  appends (_report_error_objects V title iterator marker).
Proof.
  unfold _report_error_objects.
  apply appends_bind; [apply appends_sep|]. intros.
  apply appends_for_each. intros [result errors].
  apply appends_for_each. intros error.
  apply appends_bind; [apply appends_sep|]. intros.
  apply _report_error_appends.
Qed.

(** X1. The session renderers only make calls on the terminal: after
    [report_session_start] or [report_session_end], whether it returned
    or raised, the threshold and both per-file flags are what they were
    and the terminal holds what it held, followed by the new calls. *)
Theorem session_rendering_only_appends
  (V : Verbosities) (session : Session) :
  appends (report_session_start V session)
  /\ appends (report_session_end V session).
Proof.
  split.
  - unfold report_session_start.
    apply appends_from_verbosity, appends_sep.
  - unfold report_session_end.
    apply appends_bind; [apply appends_get_level|]. intros lvl.
    apply appends_bind; [apply appends_when, appends_write|]. intros.
    apply appends_bind.
    + destruct (lvl <=? ERROR V).
      * apply appends_bind; [|intros]; apply _report_error_objects_appends.
      * destruct (lvl <=? CRITICAL V); [|apply appends_ret].
        apply appends_for_each. intros result.
        unfold _report_result_concise.
        destruct (_ || _)%bool; [|apply appends_ret].
        repeat (appends_step; intros).
    + intros. destruct (session_end_message session). apply appends_sep.
Qed.

(** X2. The file and test events never change the threshold and never
    remove anything from the terminal, also when [report_file_end]
    raises on a missing flag. *)
Theorem file_and_test_events_extend (V : Verbosities) (filename : string) :
  extends report_test_success
  /\ extends report_test_skip
  /\ extends report_test_error
  /\ extends report_test_failure
  /\ extends (report_file_start V filename)
  /\ extends (report_file_end V filename).
Proof.
  repeat split; try (cbn; eexists; reflexivity);
    destruct self as [level terminal failed has_skips];
    unfold after, report_file_start, report_file_end, from_verbosity, bind,
      get_level, get_file_failed, get_file_has_skips; cbn;
    destruct (level <=? WARNING V); cbn;
    try reflexivity;
    try (destruct failed as [[|]|]; cbn; try reflexivity;
         destruct has_skips as [[|]|]; cbn; try reflexivity);
    try (eexists; rewrite <- ?app_assoc; reflexivity);
    exists []; now rewrite app_nil_r.
Qed.

(** ** The locals and globals of a frame *)

Lemma string_append_assoc (a b c : string) :
  ((a ++ b) ++ c)%string = (a ++ b ++ c)%string.
Proof. induction a as [|x a IH]; cbn; now rewrite ?IH. Qed.

Lemma written_app (a b : list event) :
  written (a ++ b) = (written a ++ written b)%string.
Proof.
  induction a as [|[msg kw|s kw|c t kw] a IH]; cbn; trivial.
  now rewrite IH, string_append_assoc.
Qed.

Lemma string_append_nil_r (s : string) : (s ++ "")%string = s.
Proof. induction s as [|c s IH]; cbn; now rewrite ?IH. Qed.

(** An item after the first comes behind a comma and a space. *)
Lemma written_items_from (index : nat) (item : string * string)
  (rest : list (string * string)) :
  written (frame_items_events index (item :: rest))
  = ((if (0 <? index)%nat then ", " else "")
       ++ String.concat ", " (map item_text (item :: rest)))%string.
Proof.
  revert index item. induction rest as [|item' rest IH]; intros index item.
  - destruct item as [name value].
    cbn [frame_items_events map String.concat].
    rewrite !written_app. unfold item_text.
    destruct index as [|index]; cbn [fst snd written Nat.ltb Nat.leb];
      now rewrite ?string_append_nil_r, ?string_append_assoc.
  - destruct item as [name value].
    change (frame_items_events index ((name, value) :: item' :: rest))
      with ((if (0 <? index)%nat then [Write ", " []] else [])
              ++ [Write (name ++ ": ") [cyan; blink]; Write value []]
              ++ frame_items_events (S index) (item' :: rest)).
    rewrite !written_app, IH.
    change (String.concat ", " (map item_text ((name, value) :: item' :: rest)))
      with (item_text (name, value) ++ ", "
              ++ String.concat ", " (map item_text (item' :: rest)))%string.
    unfold item_text.
    destruct index as [|index]; cbn [fst snd written Nat.ltb Nat.leb];
      now rewrite ?string_append_nil_r, ?string_append_assoc.
Qed.

Lemma written_items (items : list (string * string)) :
  written (frame_items_events 0 items)
  = String.concat ", " (map item_text items).
Proof.
  destruct items as [|item rest]; [reflexivity|].
  now rewrite written_items_from.
Qed.

(** X3. [_write_frame_locals] writes nothing above WARNING, and nothing
    for a frame without locals and globals; otherwise the text it
    writes is the locals followed by the globals, each as [name: value],
    joined by a comma and a space, and then two line breaks. *)
Theorem write_frame_locals_text
  (V : Verbosities) (frame : Frame) (self : ConsoleReporter) :
  (_level self > WARNING V -> _write_frame_locals V frame self = Ok tt self)
  /\ (locals frame = [] -> globals frame = [] ->
      _write_frame_locals V frame self = Ok tt self)
  /\ (_level self <= WARNING V ->
      locals frame ++ globals frame <> [] ->
      exists evs,
        _write_frame_locals V frame self = Ok tt (emit_to self evs)
        /\ written evs
           = (String.concat ", "
                (map item_text (locals frame ++ globals frame))
                ++ newline ++ newline)%string).
Proof.
  pose proof (_write_frame_locals_emits V (_level self) frame self eq_refl)
    as H.
  unfold frame_locals_events in H.
  split; [|split].
  - intros Hgt.
    assert (Hb : (_level self <=? WARNING V) = false)
      by (apply Z.leb_gt; lia).
    rewrite Hb in H. now rewrite emit_to_nil in H.
  - intros Hl Hg. rewrite Hl, Hg in H. cbn [app] in H.
    destruct (_level self <=? WARNING V); now rewrite emit_to_nil in H.
  - intros Hle Hne. apply Z.leb_le in Hle. rewrite Hle in H.
    destruct (locals frame ++ globals frame) as [|item rest] eqn:E;
      [now elim Hne|].
    eexists. split; [exact H|].
    rewrite written_app, written_items. cbn [written].
    now rewrite string_append_assoc.
Qed.

Lemma write_frame_locals_text_witness :
  _write_frame_locals Sample.levels Sample.inner (Sample.busy 14)
  = Ok tt (Sample.busy 14)
  /\ _write_frame_locals Sample.levels Sample.bare (Sample.busy 13)
     = Ok tt (Sample.busy 13)
  /\ exists evs,
       _write_frame_locals Sample.levels Sample.outer (Sample.busy 13)
       = Ok tt (emit_to (Sample.busy 13) evs)
       /\ written evs
          = (String.concat ", "
               (map item_text (locals Sample.outer ++ globals Sample.outer))
               ++ newline ++ newline)%string.
Proof.
  split; [|split].
  - apply (proj1 (write_frame_locals_text
                    Sample.levels Sample.inner (Sample.busy 14))).
    reflexivity.
  - apply (proj1 (proj2 (write_frame_locals_text
                           Sample.levels Sample.bare (Sample.busy 13))));
      reflexivity.
  - apply (proj2 (proj2 (write_frame_locals_text
                           Sample.levels Sample.outer (Sample.busy 13)))).
    + discriminate.
    + discriminate.
Defined.

(** ** One error *)

(** X4. [_report_error] raises [IndexError] exactly when the error
    carries a traceback object without frames and the threshold is above
    WARNING; it raises before writing, so the reporter is as it was. In
    every other case it returns. *)
Theorem report_error_raises_iff
  (V : Verbosities) (error : Error) (marker : string)
  (self : ConsoleReporter) :
  ((exists tb, traceback error = Some tb /\ frames tb = []
               /\ _level self > WARNING V) ->
   _report_error V error marker self = Raise IndexError self)
  /\ (~ (exists tb, traceback error = Some tb /\ frames tb = []
                    /\ _level self > WARNING V) ->
      exists evs, _report_error V error marker self
                  = Ok tt (emit_to self evs)).
Proof.
  split.
  - intros (tb & Htb & Hfs & Hgt).
    now apply (_report_error_raises V (_level self) error marker tb).
  - intros Hno. exists (error_events V (_level self) error marker).
    apply _report_error_emits; [|reflexivity].
    unfold has_innermost. destruct (traceback error) as [tb|]; [|reflexivity].
    destruct (Z.gtb_spec (_level self) (WARNING V)) as [Hgt|_]; [|reflexivity].
    destruct (frames tb) eqn:Hfs; [|reflexivity].
    elim Hno. exists tb. repeat split; trivial. lia.
Qed.

Lemma report_error_raises_iff_witness :
  _report_error Sample.levels Sample.hollow "F" (Sample.busy 14)
  = Raise IndexError (Sample.busy 14)
  /\ exists evs, _report_error Sample.levels Sample.hollow "F" (Sample.busy 13)
                 = Ok tt (emit_to (Sample.busy 13) evs).
Proof.
  split.
  - apply (proj1 (report_error_raises_iff
                    Sample.levels Sample.hollow "F" (Sample.busy 14))).
    exists {| frames := [] |}. repeat split.
  - apply (proj2 (report_error_raises_iff
                    Sample.levels Sample.hollow "F" (Sample.busy 13))).
    intros (tb & _ & _ & Hgt). discriminate Hgt.
Defined.

Lemma frames_events_snoc V lvl error marker (outer : list Frame) (f : Frame) :
  frames_events V lvl error marker (outer ++ [f])
  = flat_map (fun g => frame_events V lvl error marker false g ++ [thin_rule])
             outer
      ++ frame_events V lvl error marker true f.
Proof.
  induction outer as [|g rest IH]; [reflexivity|].
  cbn [app flat_map frames_events].
  destruct (rest ++ [f]) eqn:E; [now destruct rest|].
  rewrite IH, <- !app_assoc. reflexivity.
Qed.

(** X5. At WARNING or below, an error whose traceback ends in the frame
    [f] is rendered as each outer frame followed by a thin rule and then
    [f]: the marker and the message are written once, with the innermost
    frame, and every frame has its position line. *)
Theorem report_error_all_frames
  (V : Verbosities) (error : Error) (marker : string) (tb : Traceback)
  (outer : list Frame) (f : Frame) (self : ConsoleReporter) :
  traceback error = Some tb ->
  frames tb = outer ++ [f] ->
  _level self <= WARNING V ->
  _report_error V error marker self
  = Ok tt (emit_to self
             (flat_map
                (fun g =>
                   frame_locals_events V (_level self) g
                     ++ frame_code_events V (_level self) g
                     ++ [frame_position_event g; thin_rule])
                outer
                ++ frame_locals_events V (_level self) f
                ++ frame_code_events V (_level self) f
                ++ marker_line_events error marker
                ++ [frame_position_event f])).
Proof.
  intros Htb Hfs Hle.
  assert (Hgt : (_level self >? WARNING V) = false).
  { rewrite Z.gtb_ltb. apply Z.ltb_ge. exact Hle. }
  rewrite (_report_error_emits V (_level self) error marker); trivial.
  - unfold error_events, selected_frames.
    rewrite Htb, Hgt, Hfs, frames_events_snoc. unfold frame_events.
    erewrite flat_map_ext; [reflexivity|]. intros g.
    cbn [app]. now rewrite <- !app_assoc.
  - unfold has_innermost. now rewrite Htb, Hgt.
Qed.

Lemma report_error_all_frames_witness :
  _report_error Sample.levels Sample.boom "F" (Sample.busy 13)
  = Ok tt (emit_to (Sample.busy 13)
             (flat_map
                (fun g =>
                   frame_locals_events Sample.levels 13 g
                     ++ frame_code_events Sample.levels 13 g
                     ++ [frame_position_event g; thin_rule])
                [Sample.outer]
                ++ frame_locals_events Sample.levels 13 Sample.inner
                ++ frame_code_events Sample.levels 13 Sample.inner
                ++ marker_line_events Sample.boom "F"
                ++ [frame_position_event Sample.inner])).
Proof.
  apply (report_error_all_frames Sample.levels Sample.boom "F"
           {| frames := [Sample.outer; Sample.inner] |}
           [Sample.outer] Sample.inner (Sample.busy 13)).
  - reflexivity.
  - reflexivity.
  - discriminate.
Defined.

(** X6. Above WARNING an error with frames is rendered from its
    innermost frame alone, without locals and globals: the frame's
    [code_line] behind [>] when its [code_string] is not empty, the
    marker line, the position of the frame. *)
Theorem report_error_compact
  (V : Verbosities) (error : Error) (marker : string) (tb : Traceback)
  (outer : list Frame) (f : Frame) (self : ConsoleReporter) :
  traceback error = Some tb ->
  frames tb = outer ++ [f] ->
  _level self > WARNING V ->
  _report_error V error marker self
  = Ok tt (emit_to self
             ((if Py.truthy_str (code_string f)
               then [Write ">" [white; bold];
                     Write (code_line f) [white; bold];
                     Write newline []]
               else [])
                ++ marker_line_events error marker
                ++ [Write (filename f ++ ":" ++ Py.str_int (lineno f) ++ ":"
                             ++ newline) []])).
Proof.
  intros Htb Hfs Hgt.
  assert (Hb : (_level self >? WARNING V) = true) by now apply Z.gtb_gt.
  assert (Hle : (_level self <=? WARNING V) = false)
    by (apply Z.leb_gt; lia).
  rewrite (_report_error_emits V (_level self) error marker); trivial.
  - unfold error_events, selected_frames.
    rewrite Htb, Hb, Hfs, rev_app_distr. cbn [rev app frames_events].
    unfold frame_events, frame_locals_events, frame_code_events,
      frame_code_lines, frame_position_event.
    rewrite Hle. now destruct (code_string f).
  - unfold has_innermost. rewrite Htb, Hb, Hfs. now destruct outer.
Qed.

Lemma report_error_compact_witness :
  _report_error Sample.levels Sample.boom "F" (Sample.busy 14)
  = Ok tt (emit_to (Sample.busy 14)
             ((if Py.truthy_str (code_string Sample.inner)
               then [Write ">" [white; bold];
                     Write (code_line Sample.inner) [white; bold];
                     Write newline []]
               else [])
                ++ marker_line_events Sample.boom "F"
                ++ [Write (filename Sample.inner ++ ":"
                             ++ Py.str_int (lineno Sample.inner) ++ ":"
                             ++ newline) []])).
Proof.
  apply (report_error_compact Sample.levels Sample.boom "F"
           {| frames := [Sample.outer; Sample.inner] |}
           [Sample.outer] Sample.inner (Sample.busy 14)).
  - reflexivity.
  - reflexivity.
  - reflexivity.
Defined.

(** ** A section of errors *)

Lemma location_titles_app (a b : list event) :
  location_titles (a ++ b) = location_titles a ++ location_titles b.
Proof.
  induction a as [|[msg kw|s kw|c [t|] kw] a IH]; cbn; trivial.
  destruct (String.eqb c "_"); cbn; now rewrite IH.
Qed.

Lemma location_titles_items (index : nat) (items : list (string * string)) :
  location_titles (frame_items_events index items) = [].
Proof.
  revert index. induction items as [|[name value] rest IH]; intros index.
  - reflexivity.
  - cbn [frame_items_events]. rewrite !location_titles_app, IH.
    now destruct (0 <? index)%nat.
Qed.

Lemma location_titles_code_block (code_lines : list string) :
  location_titles (code_block_events code_lines) = [].
Proof.
  induction code_lines as [|line rest IH]; [reflexivity|].
  destruct rest as [|line' rest]; [reflexivity|].
  change (code_block_events (line :: line' :: rest))
    with ([Write " " []; Write line [white; bold]; Write newline []]
            ++ code_block_events (line' :: rest)).
  now rewrite location_titles_app, IH.
Qed.

Lemma location_titles_locals V lvl frame :
  location_titles (frame_locals_events V lvl frame) = [].
Proof.
  unfold frame_locals_events.
  destruct (lvl <=? WARNING V); [|reflexivity].
  destruct (locals frame ++ globals frame); [reflexivity|].
  now rewrite location_titles_app, location_titles_items.
Qed.

Lemma location_titles_code V lvl frame :
  location_titles (frame_code_events V lvl frame) = [].
Proof.
  unfold frame_code_events.
  destruct (code_string frame); [reflexivity|].
  apply location_titles_code_block.
Qed.

Lemma location_titles_frame V lvl error marker is_last frame :
  location_titles (frame_events V lvl error marker is_last frame) = [].
Proof.
  unfold frame_events.
  rewrite !location_titles_app, location_titles_locals, location_titles_code.
  now destruct is_last.
Qed.

Lemma location_titles_frames V lvl error marker (fs : list Frame) :
  location_titles (frames_events V lvl error marker fs) = [].
Proof.
  induction fs as [|f rest IH]; [reflexivity|].
  destruct rest as [|g rest].
  - apply location_titles_frame.
  - change (frames_events V lvl error marker (f :: g :: rest))
      with (frame_events V lvl error marker false f
              ++ thin_rule :: frames_events V lvl error marker (g :: rest)).
    rewrite location_titles_app, location_titles_frame.
    cbn [app]. unfold thin_rule. cbn [location_titles]. exact IH.
Qed.

(** X7. [_report_error_objects] writes the title rule and then, for
    each pair of the iterator in order and for each of its errors, one
    location rule titled with the location of the pair's result; no
    other location rule is written, and none at all for an empty
    iterator or an empty list of errors. *)
Theorem report_error_objects_location_rules
  (V : Verbosities) (title : string) (groups : list (Result * list Error))
  (marker : string) (self : ConsoleReporter) :
  forallb (fun group => forallb (has_innermost V (_level self)) (snd group))
          groups = true ->
  exists evs,
    _report_error_objects V title groups marker self
    = Ok tt (emit_to self (Sep "=" (Some title) [] :: evs))
    /\ location_titles evs
       = flat_map (fun group =>
                     map (fun _ => _get_location (fst group)) (snd group))
                  groups.
Proof.
  intros Hall.
  exists (flat_map (group_events V (_level self) marker) groups).
  split.
  - exact (_report_error_objects_emits V (_level self) title groups marker
             Hall self eq_refl).
  - clear Hall. induction groups as [|[result errors] rest IH]; [reflexivity|].
    cbn [flat_map fst snd]. rewrite location_titles_app, IH. f_equal.
    unfold group_events; cbn [fst snd].
    induction errors as [|e es IHe]; [reflexivity|].
    cbn [flat_map map]. unfold location_rule at 1. cbn [app location_titles].
    cbn [String.eqb Ascii.eqb Bool.eqb]. cbn [app]. f_equal.
    unfold error_events at 1.
    now rewrite location_titles_app, location_titles_frames.
Qed.

Lemma report_error_objects_location_rules_witness :
  exists evs,
    _report_error_objects Sample.levels "ERRORS"
      (iter_all_errors (results Sample.failed_session)) "E" (Sample.busy 14)
    = Ok tt (emit_to (Sample.busy 14)
               (Sep "=" (Some "ERRORS"%string) [] :: evs))
    /\ location_titles evs
       = flat_map (fun group =>
                     map (fun _ => _get_location (fst group)) (snd group))
                  (iter_all_errors (results Sample.failed_session)).
Proof.
  apply (report_error_objects_location_rules Sample.levels "ERRORS"
           (iter_all_errors (results Sample.failed_session)) "E"
           (Sample.busy 14)).
  reflexivity.
Defined.

(** ** When the end of the session raises *)






(** X8. [report_session_end] returns for every session when the
    threshold is at most WARNING or above ERROR: only between the two
    does the rendering index a traceback's frames. *)
Theorem session_end_returns_outside_band
  (V : Verbosities) (session : Session) (self : ConsoleReporter) :
  _level self <= WARNING V \/ ERROR V < _level self ->
  report_session_end V session self
  = Ok tt (emit_to self (session_end_events V (_level self) session)).
Proof.
  intros H. apply report_session_end_emits; [|reflexivity].
  unfold renderable. destruct H as [Hle|Hgt].
  - assert (Hb : (_level self >? WARNING V) = false).
    { rewrite Z.gtb_ltb. now apply Z.ltb_ge. }
    apply orb_true_iff. right.
    apply forallb_forall. intros group _.
    apply forallb_forall. intros e _.
    unfold has_innermost. rewrite Hb. now destruct (traceback e).
  - assert (Hb : (_level self <=? ERROR V) = false) by (apply Z.leb_gt; lia).
    now rewrite Hb.
Qed.

Lemma session_end_returns_outside_band_witness :
  report_session_end Sample.levels Sample.hollow_session (Sample.busy 13)
  = Ok tt (emit_to (Sample.busy 13)
             (session_end_events Sample.levels 13 Sample.hollow_session))
  /\ report_session_end Sample.levels Sample.hollow_session (Sample.busy 15)
     = Ok tt (emit_to (Sample.busy 15)
                (session_end_events Sample.levels 15 Sample.hollow_session)).
Proof.
  split.
  - apply (session_end_returns_outside_band
             Sample.levels Sample.hollow_session (Sample.busy 13)).
    left. discriminate.
  - apply (session_end_returns_outside_band
             Sample.levels Sample.hollow_session (Sample.busy 15)).
    right. reflexivity.
Defined.




(** ** Files and their flags *)

(** X10. The flags do not exist until something sets them. At WARNING
    or below, [report_file_end] on a reporter whose [_file_failed] was
    never set raises [AttributeError] after writing the two spaces, and
    so it does when [_file_failed] is false and [_file_has_skips] was
    never set; a true [_file_failed] is enough for the FAIL line. *)
Theorem file_end_needs_the_flags
  (V : Verbosities) (filename : string) (self : ConsoleReporter) :
  _level self <= WARNING V ->
  (_file_failed self = None ->
   report_file_end V filename self
   = Raise AttributeError (emit_to self [Write "  " []]))
  /\ (_file_failed self = Some false ->
      _file_has_skips self = None ->
      report_file_end V filename self
      = Raise AttributeError (emit_to self [Write "  " []]))
  /\ (_file_failed self = Some true ->
      _file_has_skips self = None ->
      report_file_end V filename self
      = Ok tt (emit_to self [Write "  " []; Line "FAIL" [red]])).
Proof.
  intros Hle. apply Z.leb_le in Hle.
  destruct self as [level terminal failed has_skips]; cbn in Hle |- *.
  unfold report_file_end, from_verbosity, bind, get_level,
    get_file_failed, get_file_has_skips, terminal_write, terminal_line,
    emit_to.
  cbn. rewrite Hle.
  split; [|split]; intros; subst; cbn; now rewrite <- ?app_assoc.
Qed.

Lemma file_end_needs_the_flags_witness :
  report_file_end Sample.levels "test_math.py" (__init__ 13)
  = Raise AttributeError (emit_to (__init__ 13) [Write "  " []])
  /\ report_file_end Sample.levels "test_math.py"
       (after report_test_failure (__init__ 13))
     = Ok tt (emit_to (after report_test_failure (__init__ 13))
                [Write "  " []; Line "FAIL" [red]]).
Proof.
  split.
  - apply (proj1 (file_end_needs_the_flags
                    Sample.levels "test_math.py" (__init__ 13)
                    ltac:(discriminate))).
    reflexivity.
  - apply (proj2 (proj2 (file_end_needs_the_flags
                           Sample.levels "test_math.py"
                           (after report_test_failure (__init__ 13))
                           ltac:(discriminate))));
      reflexivity.
Defined.

Lemma report_file_verdict_witness :
  report_file Sample.levels "test_math.py" [Success; Skip; Failed; Success]
    (Sample.busy 13)
  = Ok tt (with_flags
             (emit_to (Sample.busy 13)
                ([Write "test_math.py" []; Write " " []]
                   ++ map marker_of [Success; Skip; Failed; Success]
                   ++ [Write "  " [];
                       verdict [Success; Skip; Failed; Success]]))
             (Some (existsb is_bad [Success; Skip; Failed; Success]))
             (Some (existsb is_skip [Success; Skip; Failed; Success]))).
Proof.
  apply (report_file_verdict Sample.levels "test_math.py"
           [Success; Skip; Failed; Success] (Sample.busy 13)).
  discriminate.
Defined.

Lemma report_tests_run_any (outcomes : list test_outcome)
  (self : ConsoleReporter) :
  for_each outcomes report_test self
  = Ok tt (with_flags (emit_to self (map marker_of outcomes))
             (flag_after (existsb is_bad outcomes) (_file_failed self))
             (flag_after (existsb is_skip outcomes) (_file_has_skips self))).
Proof.
  revert self. induction outcomes as [|o rest IH]; intros self.
  - destruct self; cbn. unfold ret, with_flags, emit_to; cbn.
    now rewrite app_nil_r.
  - cbn [for_each]. unfold bind.
    assert (Hstep :
      report_test o self
      = Ok tt (with_flags (emit_to self [marker_of o])
                 (flag_after (is_bad o) (_file_failed self))
                 (flag_after (is_skip o) (_file_has_skips self)))).
    { destruct self, o; reflexivity. }
    rewrite Hstep, IH.
    unfold with_flags, emit_to, flag_after; cbn.
    rewrite <- app_assoc.
    destruct (is_bad o), (is_skip o), (existsb is_bad rest),
      (existsb is_skip rest); reflexivity.
Qed.

(** X12. Above WARNING a whole file (file start, the test events, file
    end) writes the markers of its tests and nothing else, and returns
    even on a reporter whose flags were never set: the flags are never
    read and never reset, an error or a failure leaves [_file_failed]
    true and a skip leaves [_file_has_skips] true. *)
Theorem report_file_above_warning
  (V : Verbosities) (filename : string) (outcomes : list test_outcome)
  (self : ConsoleReporter) :
  _level self > WARNING V ->
  report_file V filename outcomes self
  = Ok tt (with_flags (emit_to self (map marker_of outcomes))
             (flag_after (existsb is_bad outcomes) (_file_failed self))
             (flag_after (existsb is_skip outcomes) (_file_has_skips self))).
Proof.
  intros Hgt.
  assert (Hb : (_level self <=? WARNING V) = false) by (apply Z.leb_gt; lia).
  unfold report_file, bind at 1.
  unfold report_file_start at 1, from_verbosity, bind at 1, get_level at 1.
  rewrite Hb. cbn [ret]. unfold bind at 1.
  rewrite report_tests_run_any.
  unfold report_file_end, from_verbosity, bind, get_level.
  cbn [_level with_flags emit_to]. now rewrite Hb.
Qed.

Lemma report_file_above_warning_witness :
  report_file Sample.levels "test_math.py" [Success; Skip] (__init__ 14)
  = Ok tt (with_flags (emit_to (__init__ 14) (map marker_of [Success; Skip]))
             (flag_after (existsb is_bad [Success; Skip])
                (_file_failed (__init__ 14)))
             (flag_after (existsb is_skip [Success; Skip])
                (_file_has_skips (__init__ 14)))).
Proof.
  apply (report_file_above_warning Sample.levels "test_math.py"
           [Success; Skip] (__init__ 14)).
  reflexivity.
Defined.

(** ** The duration at any sign *)



(** ** The start of the session *)

(** X14. [report_session_start] writes the rule titled
    ["Session starts"], in white and bold, when the threshold is at most
    ERROR, and nothing above it. *)
Theorem session_start_rule
  (V : Verbosities) (session : Session) (self : ConsoleReporter) :
  (_level self <= ERROR V ->
   report_session_start V session self
   = Ok tt (emit_to self
              [Sep "=" (Some "Session starts"%string) [white; bold]]))
  /\ (_level self > ERROR V ->
      report_session_start V session self = Ok tt self).
Proof.
  unfold report_session_start, from_verbosity, bind, get_level.
  split; intros H.
  - apply Z.leb_le in H. now rewrite H.
  - assert (Hb : (_level self <=? ERROR V) = false) by (apply Z.leb_gt; lia).
    now rewrite Hb.
Qed.

Lemma session_start_rule_witness :
  report_session_start Sample.levels Sample.clean_session (Sample.busy 14)
  = Ok tt (emit_to (Sample.busy 14)
             [Sep "=" (Some "Session starts"%string) [white; bold]])
  /\ report_session_start Sample.levels Sample.clean_session (Sample.busy 15)
     = Ok tt (Sample.busy 15).
Proof.
  split.
  - apply (proj1 (session_start_rule
                    Sample.levels Sample.clean_session (Sample.busy 14))).
    discriminate.
  - apply (proj2 (session_start_rule
                    Sample.levels Sample.clean_session (Sample.busy 15))).
    reflexivity.
Defined.

Example format_duration_negative :
  _format_duration (-1) = "00:59:59"%string.
Proof. reflexivity. Qed.
